(** * Atoms/instantiation_atoms.py: the [Atom] value object

    A shallow embedding of the classes [Residue] and [Atom] of
    [Atoms/instantiation_atoms.py] and of the three module-level
    instantiations, with the properties of construction.

    Modelling decisions.
    - A Python object is its attribute dictionary ([__dict__]): a finite map
      from attribute names to values.  [self.x = v] is an insertion,
      reading [self.x] is a lookup that raises [AttributeError] when the
      attribute was never assigned.
    - Python values are the tagged union [pyval]; a [float] is an IEEE 754
      binary64 number, which is Rocq's primitive [float]; an [int] is a [Z].
    - A [str] is a [string].  [str.upper] belongs to the interpreter, not to
      this file: the development is parametric in it (Section variable
      [upper]); [ascii_upper] is its restriction to ASCII text, used to run
      the constructor on concrete inputs.
    - Exceptions are the error side of [result]; statements run in the
      order of the source and the first exception aborts the rest.
    - Arguments have the types of the annotations of [__init__].
    - [assert] statements are executed (the interpreter's default mode).
    - Formatting a [float] and formatting a container belong to the
      interpreter and to NumPy: [__repr__] is parametric in them (Section
      variables [float_str] and [container_str]).  The [print] calls are
      left out. *)

From Stdlib Require Import ZArith String Ascii PrimFloat.
From stdpp Require Import base option strings gmap pretty.

(* Decimal literals such as 12.011 denote the nearest binary64 number, as in
   Python. *)
#[local] Set Warnings "-inexact-float,-register-all".

Local Open Scope string_scope.
Local Open Scope Z_scope.

(** ** Values, objects, exceptions *)

Inductive pyval : Type :=
| PyNone
| PyInt (z : Z)
| PyFloat (f : float)
| PyStr (s : string)
| PyArray (xs : list float)
| PyList (l : list pyval)
| PyDict (d : gmap string pyval).

(** An instance: its attribute dictionary. *)
Abbreviation object := (gmap string pyval).

Inductive exn : Type :=
| AssertionError (arg : pyval)
| AttributeError (attr : string).

Inductive result (A : Type) : Type :=
| Ok (a : A)
| Raise (e : exn).
Arguments Ok {A} a.
Arguments Raise {A} e.

#[global] Instance result_ret : MRet result := @Ok.
#[global] Instance result_bind : MBind result := fun A B k r =>
  match r with
  | Ok a => k a
  | Raise e => Raise e
  end.

(** [self.attr = v] *)
Definition setattr (self : object) (attr : string) (v : pyval) : object :=
  <[attr := v]> self.

(** [self.attr]: an attribute that was never assigned raises. *)
Definition getattr (self : object) (attr : string) : result pyval :=
  match self !! attr with
  | Some v => Ok v
  | None => Raise (AttributeError attr)
  end.

(** Values of the annotated types [float | None] and [str | None]. *)
Definition of_float_opt (x : option float) : pyval :=
  match x with
  | Some f => PyFloat f
  | None => PyNone
  end.

Definition of_str_opt (x : option string) : pyval :=
  match x with
  | Some s => PyStr s
  | None => PyNone
  end.

(** [not x] for [x : str | None]: [None] and the empty string are falsy. *)
Definition py_not (x : option string) : bool :=
  match x with
  | None => true
  | Some s => String.eqb s ""
  end.

(** [x == u] for [x : str | None] and a string [u]. *)
Definition eq_str (x : option string) (u : string) : bool :=
  match x with
  | Some s => String.eqb s u
  | None => false
  end.

(** [v == u] for a stored value and a string literal [u]; only a string can
    be equal to a string ([element] holds a [str] or [None]). *)
Definition py_eq_str (v : pyval) (u : string) : bool :=
  match v with
  | PyStr s => String.eqb s u
  | _ => false
  end.

(** [assert cond, arg] *)
Definition py_assert (cond : bool) (arg : pyval) : result unit :=
  if cond then Ok tt else Raise (AssertionError arg).

(** [str.upper] on ASCII text: the letters a-z move to A-Z, every other
    character stays. *)
Definition ascii_upper_char (c : ascii) : ascii :=
  let n := N_of_ascii c in
  if ((97 <=? n) && (n <=? 122))%N then ascii_of_N (n - 32) else c.

Fixpoint ascii_upper (s : string) : string :=
  match s with
  | EmptyString => EmptyString
  | String c s' => String (ascii_upper_char c) (ascii_upper s')
  end.

(** ** Formatting *)

Section Formatting.

(** [repr] of a [float] (also its [str]): the shortest decimal text that
    reads back as the same number. *)
Variable float_str : float -> string.

(** [str] of an array, a list or a dictionary. *)
Variable container_str : pyval -> string.

(** A replacement field [{v}] of an f-string: [format(v, "")], which is
    [str(v)] for the values here. *)
Definition py_format (v : pyval) : string :=
  match v with
  | PyNone => "None"
  | PyInt z => pretty z
  | PyFloat f => float_str f
  | PyStr s => s
  | _ => container_str v
  end.

(** [repr] of a list of floats: the items between brackets, separated by a
    comma and a space. *)
Definition list_repr (xs : list float) : string :=
  "[" +:+ String.concat ", " (map float_str xs) +:+ "]".

End Formatting.

(** [v.tolist()]: only an array has the method. *)
Definition tolist (v : pyval) : result (list float) :=
  match v with
  | PyArray xs => Ok xs
  | _ => Raise (AttributeError "tolist")
  end.

(** ** class Residue *)

Module Residue.

Definition __init__ (self : object) (name : string) (res_id : Z)
  : result object :=
  let self := setattr self "name" (PyStr name) in
  let self := setattr self "id" (PyInt res_id) in
  let self := setattr self "atoms" (PyList []) in
  Ok self.

(** The call [Residue(name, res_id)]: a fresh instance, then [__init__]. *)
Definition new (name : string) (res_id : Z) : result object :=
  __init__ ∅ name res_id.

End Residue.

(** ** class Atom *)

Module Atom.

Section WithUpper.

(** [str.upper] of the interpreter. *)
Variable upper : string -> string.

(** [x.upper()] for [x : str | None]; [None] has no such method. *)
Definition call_upper (x : option string) : result string :=
  match x with
  | Some s => Ok (upper s)
  | None => Raise (AttributeError "upper")
  end.

Definition _assign_element (self : object) (element : option string)
  : option string :=
  element.

Definition _assign_atom_mass (self : object) : result (option float) :=
  element ← getattr self "element";
  if py_eq_str element "C" then Ok (Some 12.011%float)
  else if py_eq_str element "O" then Ok (Some 15.999%float)
  else if py_eq_str element "N" then Ok (Some 14.007%float)
  else Ok None.

Definition __init__ (self : object)
    (name : string) (coord : list float)
    (bfactor occupancy : option float)
    (altloc fullname : string) (serial_number : Z)
    (element : option string) (pqr_charge radius : option float)
  : result object :=
  let self := setattr self "level" (PyStr "A") in
  let self := setattr self "parent" PyNone in
  let self := setattr self "name" (PyStr name) in
  let self := setattr self "fullname" (PyStr fullname) in
  let self := setattr self "coord" (PyArray coord) in
  let self := setattr self "bfactor" (of_float_opt bfactor) in
  let self := setattr self "occupancy" (of_float_opt occupancy) in
  let self := setattr self "altloc" (PyStr altloc) in
  let self := setattr self "full_id" PyNone in
  let self := setattr self "id" (PyStr name) in
  let self := setattr self "disordered_flag" (PyInt 0) in
  let self := setattr self "anisou_array" PyNone in
  let self := setattr self "siguij_array" PyNone in
  let self := setattr self "sigatm_array" PyNone in
  let self := setattr self "serial_number" (PyInt serial_number) in
  let self := setattr self "xtra" (PyDict ∅) in
  cond ← (if py_not element then Ok true
          else u ← call_upper element; Ok (eq_str element u));
  _ ← py_assert cond (of_str_opt element);
  let self := setattr self "element"
                (of_str_opt (_assign_element self element)) in
  mass ← _assign_atom_mass self;
  let self := setattr self "mass" (of_float_opt mass) in
  let self := setattr self "pqr_charge" (of_float_opt pqr_charge) in
  let self := setattr self "radius" (of_float_opt radius) in
  let self := setattr self "_sorting_keys"
                (PyDict (<["N" := PyInt 0]> (<["CA" := PyInt 1]>
                          (<["C" := PyInt 2]> (<["O" := PyInt 3]> ∅))))) in
  Ok self.

(** The call [Atom(...)]: a fresh instance, then [__init__]. *)
Definition new
    (name : string) (coord : list float)
    (bfactor occupancy : option float)
    (altloc fullname : string) (serial_number : Z)
    (element : option string) (pqr_charge radius : option float)
  : result object :=
  __init__ ∅ name coord bfactor occupancy altloc fullname serial_number
           element pqr_charge radius.

End WithUpper.

Section Display.

Variable float_str : float -> string.
Variable container_str : pyval -> string.

Definition __repr__ (self : object) : result string :=
  name ← getattr self "name";
  coord ← getattr self "coord";
  coord_list ← tolist coord;
  bfactor ← getattr self "bfactor";
  occupancy ← getattr self "occupancy";
  altloc ← getattr self "altloc";
  serial_number ← getattr self "serial_number";
  element ← getattr self "element";
  pqr_charge ← getattr self "pqr_charge";
  radius ← getattr self "radius";
  let fmt := py_format float_str container_str in
  Ok ("Atom(name='" +:+ fmt name
      +:+ "', coord=" +:+ list_repr float_str coord_list +:+ ", "
      +:+ "bfactor=" +:+ fmt bfactor
      +:+ ", occupancy=" +:+ fmt occupancy +:+ ", "
      +:+ "altloc='" +:+ fmt altloc
      +:+ "', serial_number=" +:+ fmt serial_number +:+ ", "
      +:+ "element='" +:+ fmt element
      +:+ "', pqr_charge=" +:+ fmt pqr_charge
      +:+ ", radius=" +:+ fmt radius +:+ ")").

End Display.

End Atom.

(** ** The module-level instantiations *)

Definition ca_atom_instance : result object :=
  Atom.new ascii_upper "CA" [15.234; 12.567; 8.901]%float
    (Some 35.7%float) (Some 1.0%float) " " " CA " 25 (Some "C") None None.

(** [element] is the last argument given; [pqr_charge] and [radius] take
    their default [None]. *)
Definition o_atom_altB : result object :=
  Atom.new ascii_upper "O" [16.123; 11.987; 9.543]%float
    (Some 45.1%float) (Some 0.5%float) "B" " O  " 26 (Some "O") None None.

Definition h_atom_pqr : result object :=
  Atom.new ascii_upper "H1" [10.0; 10.0; 10.0]%float
    None None " " " H1 " 1 (Some "H") (Some 0.25%float) (Some 1.2%float).

(** An input that is not in the file, for the fields that are not checked:
    both the PDB and the PQR fields, an occupancy above 1 and a negative
    radius. *)
Definition unchecked_atom : result object :=
  Atom.new ascii_upper "C1" [1.5; 2.5; 3.5]%float
    (Some 20.0%float) (Some 1.5%float) "A" " C1 " 7 (Some "C")
    (Some 0.25%float) (Some (-1.2)%float).




(** The text of the floats of the three atoms of the file, as the output
    recorded at the end of the file shows them; no other float is in the
    table. *)
Definition float_str_printed (f : float) : string :=
  if (f =? 15.234)%float then "15.234"
  else if (f =? 12.567)%float then "12.567"
  else if (f =? 8.901)%float then "8.901"
  else if (f =? 35.7)%float then "35.7"
  else if (f =? 1.0)%float then "1.0"
  else if (f =? 16.123)%float then "16.123"
  else if (f =? 11.987)%float then "11.987"
  else if (f =? 9.543)%float then "9.543"
  else if (f =? 45.1)%float then "45.1"
  else if (f =? 0.5)%float then "0.5"
  else if (f =? 10.0)%float then "10.0"
  else if (f =? 0.25)%float then "0.25"
  else if (f =? 1.2)%float then "1.2"
  else "".

(** The text [Atom.__repr__] puts between the name and the alternative
    location. *)
Definition repr_between (float_str : float -> string)
    (container_str : pyval -> string)
    (coord : list float) (bfactor occupancy : option float) : string :=
  let fmt := py_format float_str container_str in
  "', coord=" +:+ list_repr float_str coord +:+ ", "
  +:+ "bfactor=" +:+ fmt (of_float_opt bfactor)
  +:+ ", occupancy=" +:+ fmt (of_float_opt occupancy) +:+ ", "
  +:+ "altloc='".

(** ** Attribute access *)

Lemma lookup_setattr_eq (self : object) attr v :
  setattr self attr v !! attr = Some v.
Proof. apply lookup_insert_eq. Qed.

Lemma lookup_setattr_ne (self : object) attr attr' v :
  attr <> attr' -> setattr self attr v !! attr' = self !! attr'.
Proof. apply lookup_insert_ne. Qed.

Lemma getattr_setattr_eq (self : object) attr v :
  getattr (setattr self attr v) attr = Ok v.
Proof. unfold getattr. now rewrite lookup_setattr_eq. Qed.

Lemma getattr_Ok (self : object) attr v :
  getattr self attr = Ok v <-> self !! attr = Some v.
Proof.
  unfold getattr. destruct (self !! attr); split; congruence.
Qed.

(** Reads an attribute of an object given by a sequence of assignments. *)
Ltac read_attr :=
  repeat first
    [ rewrite lookup_setattr_eq
    | rewrite lookup_setattr_ne by discriminate ];
  try reflexivity.

(** ** The error monad *)

Lemma bind_Ok {A B} (a : A) (k : A -> result B) : (Ok a ≫= k) = k a.
Proof. reflexivity. Qed.

Lemma bind_Raise {A B} (e : exn) (k : A -> result B) :
  (Raise e ≫= k) = Raise e.
Proof. reflexivity. Qed.

Lemma Ok_inj {A} (a b : A) : Ok a = Ok b -> a = b.
Proof. now intros [= ->]. Qed.

(** ** The element check and the mass lookup *)

(** The asserted condition [not element or element == element.upper()]
    always evaluates: [upper] is called on a non-empty string only. *)
Lemma assert_cond_eval upper element :
  (if py_not element then Ok true
   else u ← Atom.call_upper upper element; Ok (eq_str element u))
  = Ok (match element with
        | None => true
        | Some s => String.eqb s "" || String.eqb s (upper s)
        end).
Proof.
  destruct element as [s|]; cbn [py_not]; [|reflexivity].
  destruct (String.eqb s ""); reflexivity.
Qed.

(** Once [element] is assigned, the mass lookup returns. *)
Lemma assign_atom_mass_setattr (self : object) v :
  Atom._assign_atom_mass (setattr self "element" v)
  = Ok (if py_eq_str v "C" then Some 12.011%float
        else if py_eq_str v "O" then Some 15.999%float
        else if py_eq_str v "N" then Some 14.007%float
        else None).
Proof.
  unfold Atom._assign_atom_mass. rewrite getattr_setattr_eq, bind_Ok.
  destruct (py_eq_str v "C"), (py_eq_str v "O"), (py_eq_str v "N");
    reflexivity.
Qed.

(** Runs [Atom(...)] symbolically up to the assertion. *)
Ltac init_unfold :=
  unfold Atom.new, Atom.__init__; cbv zeta;
  rewrite assert_cond_eval, bind_Ok;
  unfold Atom._assign_element.

(** From [H : Atom.new ... = Ok a]: the assertion passed (equation
    [Hcond]) and [a] is the object the assignments built. *)
Ltac init_Ok H Hcond :=
  revert H; init_unfold;
  match goal with
  | |- context [py_assert ?c _] => destruct c eqn:Hcond
  end;
  cbn [py_assert];
  [ rewrite bind_Ok, assign_atom_mass_setattr, bind_Ok;
    intros H; apply Ok_inj in H; subst
  | rewrite bind_Raise; discriminate ].

(** Runs [Atom(...)] on arguments whose element passes the assertion. *)
Ltac init_run :=
  init_unfold;
  match goal with
  | |- context [py_assert ?c _] => change c with true
  end;
  cbn [py_assert];
  rewrite bind_Ok, assign_atom_mass_setattr, bind_Ok.

(** ** The atoms of the file *)

Example ascii_upper_c : ascii_upper "c" = "C".
Proof. reflexivity. Qed.

Example ascii_upper_mixed : ascii_upper "cAz{`1 Hg" = "CAZ{`1 HG".
Proof. reflexivity. Qed.

Lemma ca_atom_instance_Ok : exists a, ca_atom_instance = Ok a.
Proof. unfold ca_atom_instance. init_run. eexists. reflexivity. Qed.

Lemma o_atom_altB_Ok : exists a, o_atom_altB = Ok a.
Proof. unfold o_atom_altB. init_run. eexists. reflexivity. Qed.

Lemma h_atom_pqr_Ok : exists a, h_atom_pqr = Ok a.
Proof. unfold h_atom_pqr. init_run. eexists. reflexivity. Qed.

Lemma unchecked_atom_Ok : exists a, unchecked_atom = Ok a.
Proof. unfold unchecked_atom. init_run. eexists. reflexivity. Qed.

(** The values the file prints. *)
Example ca_atom_instance_printed :
  exists a, ca_atom_instance = Ok a /\
    a !! "mass" = Some (PyFloat 12.011) /\
    a !! "element" = Some (PyStr "C") /\
    a !! "parent" = Some PyNone.
Proof.
  unfold ca_atom_instance. init_run.
  eexists. split; [reflexivity|]. repeat split; read_attr.
Qed.

Example o_atom_altB_printed :
  exists a, o_atom_altB = Ok a /\
    a !! "mass" = Some (PyFloat 15.999) /\
    a !! "altloc" = Some (PyStr "B") /\
    a !! "parent" = Some PyNone.
Proof.
  unfold o_atom_altB. init_run.
  eexists. split; [reflexivity|]. repeat split; read_attr.
Qed.

Example h_atom_pqr_printed :
  exists a, h_atom_pqr = Ok a /\
    a !! "mass" = Some PyNone /\
    a !! "radius" = Some (PyFloat 1.2) /\
    a !! "parent" = Some PyNone.
Proof.
  unfold h_atom_pqr. init_run.
  eexists. split; [reflexivity|]. repeat split; read_attr.
Qed.

(** ** Properties of construction *)

Section Construction.

Variable upper : string -> string.
Variables (name : string) (coord : list float).
Variables (bfactor occupancy : option float).
Variables (altloc fullname : string) (serial_number : Z).
Variables (element : option string) (pqr_charge radius : option float).

(** C1. For every successfully constructed Atom the mass is 12.011 when the
    element argument is "C", 15.999 when it is "O", 14.007 when it is "N",
    and [None] for any other element, among them "H" and an absent
    element. *)
Theorem Atom_mass_by_element (a : object) :
  Atom.new upper name coord bfactor occupancy altloc fullname serial_number
    element pqr_charge radius = Ok a ->
  (element = Some "C" -> a !! "mass" = Some (PyFloat 12.011)) /\
  (element = Some "O" -> a !! "mass" = Some (PyFloat 15.999)) /\
  (element = Some "N" -> a !! "mass" = Some (PyFloat 14.007)) /\
  (element <> Some "C" -> element <> Some "O" -> element <> Some "N" ->
   a !! "mass" = Some PyNone) /\
  (element = Some "H" -> a !! "mass" = Some PyNone) /\
  (element = None -> a !! "mass" = Some PyNone).
Proof.
  intros H. init_Ok H Hcond. clear Hcond.
  repeat split; try (intros ->; read_attr).
  intros HC HO HN. read_attr.
  destruct element as [s|]; cbn [of_str_opt py_eq_str]; [|reflexivity].
  destruct (String.eqb_spec s "C"); [congruence|].
  destruct (String.eqb_spec s "O"); [congruence|].
  destruct (String.eqb_spec s "N"); [congruence|].
  reflexivity.
Qed.

(** C2. Construction fails, the assertion being violated, whenever the
    supplied element string is not equal to its upper-case form (as "c" is
    not), and this is the only way construction fails.  [upper] maps the
    empty string to itself, as [str.upper] does. *)
Theorem Atom_new_raises_iff_not_upper (Hempty : upper "" = "") :
  (forall s, element = Some s -> s <> upper s ->
     Atom.new upper name coord bfactor occupancy altloc fullname
       serial_number element pqr_charge radius
     = Raise (AssertionError (PyStr s))) /\
  (forall e,
     Atom.new upper name coord bfactor occupancy altloc fullname
       serial_number element pqr_charge radius = Raise e ->
     exists s, element = Some s /\ s <> upper s /\
               e = AssertionError (PyStr s)).
Proof.
  split.
  - intros s -> Hs. init_unfold.
    destruct (String.eqb_spec s "") as [->|_]; [congruence|].
    destruct (String.eqb_spec s (upper s)); [congruence|].
    reflexivity.
  - intros e. init_unfold.
    match goal with
    | |- context [py_assert ?c _] => destruct c eqn:Hcond
    end; cbn [py_assert].
    + rewrite bind_Ok, assign_atom_mass_setattr, bind_Ok. discriminate.
    + rewrite bind_Raise. intros [= <-].
      destruct element as [s|]; [|discriminate]. exists s.
      apply orb_false_iff in Hcond as [_ Hne].
      apply String.eqb_neq in Hne. auto.
Qed.

(** C3. For every successful construction the fields name, coord, bfactor,
    occupancy, altloc, fullname, serial_number, pqr_charge and radius read
    back as the values passed to the constructor. *)
Theorem Atom_fields_stored (a : object) :
  Atom.new upper name coord bfactor occupancy altloc fullname serial_number
    element pqr_charge radius = Ok a ->
  a !! "name" = Some (PyStr name) /\
  a !! "coord" = Some (PyArray coord) /\
  a !! "bfactor" = Some (of_float_opt bfactor) /\
  a !! "occupancy" = Some (of_float_opt occupancy) /\
  a !! "altloc" = Some (PyStr altloc) /\
  a !! "fullname" = Some (PyStr fullname) /\
  a !! "serial_number" = Some (PyInt serial_number) /\
  a !! "pqr_charge" = Some (of_float_opt pqr_charge) /\
  a !! "radius" = Some (of_float_opt radius).
Proof.
  intros H. init_Ok H Hcond. clear Hcond.
  repeat split; read_attr.
Qed.

(** C4. Whenever the element is absent or equal to its upper-case form,
    construction succeeds, whatever the other arguments are: no other
    field is checked. *)
Theorem Atom_new_succeeds_unchecked :
  match element with
  | None => True
  | Some s => s = upper s
  end ->
  exists a,
    Atom.new upper name coord bfactor occupancy altloc fullname
      serial_number element pqr_charge radius = Ok a.
Proof.
  intros Hel. init_unfold.
  match goal with
  | |- context [py_assert ?c _] => replace c with true
  end.
  - cbn [py_assert].
    rewrite bind_Ok, assign_atom_mass_setattr, bind_Ok. eauto.
  - destruct element as [s|]; [|reflexivity].
    apply String.eqb_eq in Hel. rewrite Hel. symmetry. apply orb_true_r.
Qed.

(** C6. Element assignment is the identity, and the element of a
    constructed Atom is the element argument as it was given. *)
Theorem Atom_element_identity :
  (forall self e, Atom._assign_element self e = e) /\
  (forall a,
     Atom.new upper name coord bfactor occupancy altloc fullname
       serial_number element pqr_charge radius = Ok a ->
     a !! "element" = Some (of_str_opt element)).
Proof.
  split; [reflexivity|].
  intros a H. init_Ok H Hcond. clear Hcond. read_attr.
Qed.

(** C7. After every successful construction the parent reference is
    [None]. *)
Theorem Atom_parent_unset (a : object) :
  Atom.new upper name coord bfactor occupancy altloc fullname serial_number
    element pqr_charge radius = Ok a ->
  a !! "parent" = Some PyNone.
Proof.
  intros H. init_Ok H Hcond. clear Hcond. read_attr.
Qed.

(** C9. After every successful construction: id is the name argument,
    level is "A", disordered_flag is 0, full_id is [None], xtra is an
    empty dictionary, and anisou_array, siguij_array and sigatm_array are
    [None]. *)
Theorem Atom_initial_state (a : object) :
  Atom.new upper name coord bfactor occupancy altloc fullname serial_number
    element pqr_charge radius = Ok a ->
  a !! "id" = Some (PyStr name) /\
  a !! "level" = Some (PyStr "A") /\
  a !! "disordered_flag" = Some (PyInt 0) /\
  a !! "full_id" = Some PyNone /\
  a !! "xtra" = Some (PyDict ∅) /\
  a !! "anisou_array" = Some PyNone /\
  a !! "siguij_array" = Some PyNone /\
  a !! "sigatm_array" = Some PyNone.
Proof.
  intros H. init_Ok H Hcond. clear Hcond.
  repeat split; read_attr.
Qed.

Variables (name' : string) (coord' : list float).
Variables (bfactor' occupancy' : option float).
Variables (altloc' fullname' : string) (serial_number' : Z).
Variables (pqr_charge' radius' : option float).

(** C10. Two successfully constructed Atoms with the same element argument
    have the same mass, whatever their other arguments are. *)
Theorem Atom_mass_depends_only_on_element (a a' : object) :
  Atom.new upper name coord bfactor occupancy altloc fullname serial_number
    element pqr_charge radius = Ok a ->
  Atom.new upper name' coord' bfactor' occupancy' altloc' fullname'
    serial_number' element pqr_charge' radius' = Ok a' ->
  a !! "mass" = a' !! "mass".
Proof.
  intros H H'. init_Ok H Hcond. init_Ok H' Hcond'. read_attr.
Qed.

(** C5. Constructing an Atom without an element succeeds, and the Atom has
    no mass. *)
Theorem Atom_new_None_element :
  exists a,
    Atom.new upper name coord bfactor occupancy altloc fullname
      serial_number None pqr_charge radius = Ok a /\
    a !! "mass" = Some PyNone.
Proof.
  init_unfold. cbn [py_assert].
  rewrite bind_Ok, assign_atom_mass_setattr, bind_Ok.
  eexists. split; [reflexivity|]. read_attr.
Qed.

(** C8. Constructing an Atom with the empty string as element succeeds
    (the check stops at [not element], so [upper] is not called), stores the
    empty string as the element and gives no mass. *)
Theorem Atom_new_empty_element :
  exists a,
    Atom.new upper name coord bfactor occupancy altloc fullname
      serial_number (Some "") pqr_charge radius = Ok a /\
    a !! "element" = Some (PyStr "") /\
    a !! "mass" = Some PyNone.
Proof.
  init_unfold. cbn [String.eqb orb py_assert].
  rewrite bind_Ok, assign_atom_mass_setattr, bind_Ok.
  eexists. split; [reflexivity|]. split; read_attr.
Qed.

End Construction.

(** ** The properties at the atoms of the file *)

Lemma Atom_mass_by_element_witness :
  exists a, ca_atom_instance = Ok a /\ a !! "mass" = Some (PyFloat 12.011).
Proof.
  destruct ca_atom_instance_Ok as [a E].
  exists a. split; [exact E|].
  exact (proj1 (Atom_mass_by_element ascii_upper "CA"
                  [15.234; 12.567; 8.901]%float (Some 35.7%float)
                  (Some 1.0%float) " " " CA " 25 (Some "C") None None a E)
               eq_refl).
Defined.

Lemma Atom_new_raises_iff_not_upper_witness :
  ascii_upper "" = "" /\
  Atom.new ascii_upper "CA" [15.234; 12.567; 8.901]%float
    (Some 35.7%float) (Some 1.0%float) " " " CA " 25 (Some "c") None None
  = Raise (AssertionError (PyStr "c")).
Proof.
  split; [reflexivity|].
  apply (Atom_new_raises_iff_not_upper ascii_upper "CA"
           [15.234; 12.567; 8.901]%float (Some 35.7%float)
           (Some 1.0%float) " " " CA " 25 (Some "c") None None eq_refl);
    [reflexivity | discriminate].
Defined.

Lemma Atom_fields_stored_witness :
  exists a, h_atom_pqr = Ok a /\
    a !! "name" = Some (PyStr "H1") /\
    a !! "coord" = Some (PyArray [10.0; 10.0; 10.0]%float) /\
    a !! "bfactor" = Some PyNone /\
    a !! "occupancy" = Some PyNone /\
    a !! "altloc" = Some (PyStr " ") /\
    a !! "fullname" = Some (PyStr " H1 ") /\
    a !! "serial_number" = Some (PyInt 1) /\
    a !! "pqr_charge" = Some (PyFloat 0.25) /\
    a !! "radius" = Some (PyFloat 1.2).
Proof.
  destruct h_atom_pqr_Ok as [a E].
  exists a. split; [exact E|].
  exact (Atom_fields_stored ascii_upper "H1" [10.0; 10.0; 10.0]%float
             None None " " " H1 " 1 (Some "H") (Some 0.25%float)
             (Some 1.2%float) a E).
Defined.

Lemma Atom_new_succeeds_unchecked_witness :
  "C" = ascii_upper "C" /\ exists a, unchecked_atom = Ok a.
Proof.
  split; [reflexivity|].
  exact (Atom_new_succeeds_unchecked ascii_upper "C1"
           [1.5; 2.5; 3.5]%float (Some 20.0%float)
           (Some 1.5%float) "A" " C1 " 7 (Some "C") (Some 0.25%float)
           (Some (-1.2)%float) eq_refl).
Defined.

Lemma Atom_element_identity_witness :
  exists a, o_atom_altB = Ok a /\ a !! "element" = Some (PyStr "O").
Proof.
  destruct o_atom_altB_Ok as [a E].
  exists a. split; [exact E|].
  exact (proj2 (Atom_element_identity ascii_upper "O"
                    [16.123; 11.987; 9.543]%float (Some 45.1%float)
                    (Some 0.5%float) "B" " O  " 26 (Some "O") None None)
                 a E).
Defined.

Lemma Atom_parent_unset_witness :
  exists a, ca_atom_instance = Ok a /\ a !! "parent" = Some PyNone.
Proof.
  destruct ca_atom_instance_Ok as [a E].
  exists a. split; [exact E|].
  exact (Atom_parent_unset ascii_upper "CA"
             [15.234; 12.567; 8.901]%float (Some 35.7%float)
             (Some 1.0%float) " " " CA " 25 (Some "C") None None a E).
Defined.

Lemma Atom_initial_state_witness :
  exists a, o_atom_altB = Ok a /\
    a !! "id" = Some (PyStr "O") /\
    a !! "level" = Some (PyStr "A") /\
    a !! "disordered_flag" = Some (PyInt 0) /\
    a !! "full_id" = Some PyNone /\
    a !! "xtra" = Some (PyDict ∅) /\
    a !! "anisou_array" = Some PyNone /\
    a !! "siguij_array" = Some PyNone /\
    a !! "sigatm_array" = Some PyNone.
Proof.
  destruct o_atom_altB_Ok as [a E].
  exists a. split; [exact E|].
  exact (Atom_initial_state ascii_upper "O"
             [16.123; 11.987; 9.543]%float (Some 45.1%float)
             (Some 0.5%float) "B" " O  " 26 (Some "O") None None a E).
Defined.

Lemma Atom_mass_depends_only_on_element_witness :
  exists a a', ca_atom_instance = Ok a /\ unchecked_atom = Ok a' /\
    a !! "mass" = a' !! "mass".
Proof.
  destruct ca_atom_instance_Ok as [a E].
  destruct unchecked_atom_Ok as [a' E'].
  exists a, a'. split; [exact E|]. split; [exact E'|].
  exact (Atom_mass_depends_only_on_element ascii_upper "CA"
           [15.234; 12.567; 8.901]%float (Some 35.7%float)
           (Some 1.0%float) " " " CA " 25 (Some "C") None None
           "C1" [1.5; 2.5; 3.5]%float (Some 20.0%float)
           (Some 1.5%float) "A" " C1 " 7 (Some 0.25%float)
           (Some (-1.2)%float) a a' E E').
Defined.

(** * Further properties of the classes *)

(** ** More on attribute access and on text *)

Lemma getattr_lookup (self : object) attr v :
  self !! attr = Some v -> getattr self attr = Ok v.
Proof. apply getattr_Ok. Qed.




Lemma assign_atom_mass_lookup (self : object) v :
  self !! "element" = Some v ->
  Atom._assign_atom_mass self
  = Ok (if py_eq_str v "C" then Some 12.011%float
        else if py_eq_str v "O" then Some 15.999%float
        else if py_eq_str v "N" then Some 14.007%float
        else None).
Proof.
  intros H. unfold Atom._assign_atom_mass.
  rewrite (getattr_lookup _ _ _ H), bind_Ok.
  destruct (py_eq_str v "C"), (py_eq_str v "O"), (py_eq_str v "N");
    reflexivity.
Qed.

Lemma append_assoc (s1 s2 s3 : string) :
  (s1 +:+ s2) +:+ s3 = s1 +:+ (s2 +:+ s3).
Proof.
  induction s1 as [|c s1 IH]; [reflexivity|].
  change (String c ((s1 +:+ s2) +:+ s3) = String c (s1 +:+ (s2 +:+ s3))).
  now rewrite IH.
Qed.

Lemma append_ne_self (s : string) (c : ascii) (r : string) :
  s +:+ String c r <> s.
Proof.
  induction s as [|d s IH]; [discriminate|].
  change (String d (s +:+ String c r) <> String d s).
  intros [= H]. exact (IH H).
Qed.

(** ** Upper case on ASCII text *)





(** ** The mass lookup on its own *)


(** ** class Residue *)

(** X14. Initialising a Residue always returns; it sets name and id, makes
    the list of atoms empty, whatever the object held, and leaves every
    other attribute of the object as it was. *)
Theorem Residue_init_resets_atoms (self : object) (name : string)
    (res_id : Z) :
  exists a, Residue.__init__ self name res_id = Ok a /\
    a !! "name" = Some (PyStr name) /\
    a !! "id" = Some (PyInt res_id) /\
    a !! "atoms" = Some (PyList []) /\
    forall attr, attr <> "name" -> attr <> "id" -> attr <> "atoms" ->
      a !! attr = self !! attr.
Proof.
  unfold Residue.__init__. cbv zeta. eexists. split; [reflexivity|].
  repeat split; read_attr.
  intros attr H1 H2 H3.
  rewrite !lookup_setattr_ne by congruence. reflexivity.
Qed.

(** ** Construction, continued *)

Section ConstructionMore.

Variable upper : string -> string.
Variables (name : string) (coord : list float).
Variables (bfactor occupancy : option float).
Variables (altloc fullname : string) (serial_number : Z).
Variables (element : option string) (pqr_charge radius : option float).

(** X1. The element stored on a constructed Atom is upper case: when it is
    a string, the string equals its upper-case form.  [upper] maps the empty
    string to itself, as [str.upper] does. *)
Theorem Atom_element_upper_invariant (Hempty : upper "" = "")
    (a : object) (s : string) :
  Atom.new upper name coord bfactor occupancy altloc fullname serial_number
    element pqr_charge radius = Ok a ->
  a !! "element" = Some (PyStr s) -> s = upper s.
Proof.
  intros H. init_Ok H Hcond. read_attr.
  destruct element as [t|]; cbn [of_str_opt]; [|discriminate].
  intros [= ->].
  apply orb_true_iff in Hcond as [He|He]; apply String.eqb_eq in He.
  - subst s. now rewrite Hempty.
  - exact He.
Qed.

(** X2. On a constructed Atom the stored mass agrees with the mass lookup:
    the lookup returns, and [mass] holds what it returns. *)
Theorem Atom_mass_consistent (a : object) :
  Atom.new upper name coord bfactor occupancy altloc fullname serial_number
    element pqr_charge radius = Ok a ->
  exists m, Atom._assign_atom_mass a = Ok m /\
            a !! "mass" = Some (of_float_opt m).
Proof.
  intros H. init_Ok H Hcond. clear Hcond.
  eexists. split.
  - apply assign_atom_mass_lookup. read_attr.
  - read_attr.
Qed.

(** X4. The mass is computed once, at construction: after the element of an
    Atom built as carbon is reassigned to "O", [mass] still holds 12.011,
    while the mass lookup returns 15.999. *)
Theorem Atom_mass_not_updated (a : object) :
  Atom.new upper name coord bfactor occupancy altloc fullname serial_number
    (Some "C") pqr_charge radius = Ok a ->
  let a' := setattr a "element" (PyStr "O") in
  a' !! "mass" = Some (PyFloat 12.011) /\
  Atom._assign_atom_mass a' = Ok (Some 15.999%float).
Proof.
  intros H a'. subst a'. init_Ok H Hcond. clear Hcond. split.
  - read_attr.
  - rewrite assign_atom_mass_setattr. reflexivity.
Qed.





End ConstructionMore.

(** ** Display *)




Section Display.

Variable float_str : float -> string.
Variable container_str : pyval -> string.

Lemma repr_lookup (self : object) vn xs vb vo va vs ve vq vr :
  self !! "name" = Some vn ->
  self !! "coord" = Some (PyArray xs) ->
  self !! "bfactor" = Some vb ->
  self !! "occupancy" = Some vo ->
  self !! "altloc" = Some va ->
  self !! "serial_number" = Some vs ->
  self !! "element" = Some ve ->
  self !! "pqr_charge" = Some vq ->
  self !! "radius" = Some vr ->
  let fmt := py_format float_str container_str in
  Atom.__repr__ float_str container_str self
  = Ok ("Atom(name='" +:+ fmt vn
        +:+ "', coord=" +:+ list_repr float_str xs +:+ ", "
        +:+ "bfactor=" +:+ fmt vb
        +:+ ", occupancy=" +:+ fmt vo +:+ ", "
        +:+ "altloc='" +:+ fmt va
        +:+ "', serial_number=" +:+ fmt vs +:+ ", "
        +:+ "element='" +:+ fmt ve
        +:+ "', pqr_charge=" +:+ fmt vq
        +:+ ", radius=" +:+ fmt vr +:+ ")").
Proof.
  intros Hn Hc Hb Ho Ha Hs He Hq Hr fmt. unfold Atom.__repr__.
  rewrite (getattr_lookup _ _ _ Hn), bind_Ok.
  rewrite (getattr_lookup _ _ _ Hc), bind_Ok.
  cbn [tolist]. rewrite bind_Ok.
  rewrite (getattr_lookup _ _ _ Hb), bind_Ok.
  rewrite (getattr_lookup _ _ _ Ho), bind_Ok.
  rewrite (getattr_lookup _ _ _ Ha), bind_Ok.
  rewrite (getattr_lookup _ _ _ Hs), bind_Ok.
  rewrite (getattr_lookup _ _ _ He), bind_Ok.
  rewrite (getattr_lookup _ _ _ Hq), bind_Ok.
  rewrite (getattr_lookup _ _ _ Hr), bind_Ok.
  reflexivity.
Qed.




Variable upper : string -> string.
Variables (name : string) (coord : list float).
Variables (bfactor occupancy : option float).
Variables (altloc fullname : string) (serial_number : Z).
Variables (element : option string) (pqr_charge radius : option float).

(** The text of a constructed Atom, for any name and alternative
    location. *)
Lemma repr_of_new (n al : string) (a : object) :
  Atom.new upper n coord bfactor occupancy al fullname serial_number
    element pqr_charge radius = Ok a ->
  let fmt := py_format float_str container_str in
  Atom.__repr__ float_str container_str a
  = Ok ("Atom(name='" +:+ n
        +:+ "', coord=" +:+ list_repr float_str coord +:+ ", "
        +:+ "bfactor=" +:+ fmt (of_float_opt bfactor)
        +:+ ", occupancy=" +:+ fmt (of_float_opt occupancy) +:+ ", "
        +:+ "altloc='" +:+ al
        +:+ "', serial_number=" +:+ pretty serial_number +:+ ", "
        +:+ "element='" +:+ fmt (of_str_opt element)
        +:+ "', pqr_charge=" +:+ fmt (of_float_opt pqr_charge)
        +:+ ", radius=" +:+ fmt (of_float_opt radius) +:+ ")").
Proof.
  intros H fmt. init_Ok H Hcond. clear Hcond.
  apply (repr_lookup _ (PyStr n) coord
           (of_float_opt bfactor) (of_float_opt occupancy) (PyStr al)
           (PyInt serial_number) (of_str_opt element)
           (of_float_opt pqr_charge) (of_float_opt radius)); read_attr.
Qed.


(** X13. The text of [__repr__] does not determine the Atom: since strings
    are not escaped, an alternative location can contain the text of the
    fields before it, and two Atoms with different names then have the same
    text. *)
Theorem Atom_repr_ambiguous (n m t : string) (a b : object) :
  let sep := repr_between float_str container_str coord bfactor occupancy in
  Atom.new upper n coord bfactor occupancy (m +:+ sep +:+ t) fullname
    serial_number element pqr_charge radius = Ok a ->
  Atom.new upper (n +:+ sep +:+ m) coord bfactor occupancy t fullname
    serial_number element pqr_charge radius = Ok b ->
  a !! "name" <> b !! "name" /\
  Atom.__repr__ float_str container_str a
  = Atom.__repr__ float_str container_str b.
Proof.
  intros sep Ha Hb. split.
  - init_Ok Ha Hcond. init_Ok Hb Hcond'. clear Hcond Hcond'.
    read_attr. intros [= H].
    assert (Hsep : exists c r, sep +:+ m = String c r)
      by (do 2 eexists; reflexivity).
    destruct Hsep as (c & r & Hsep). rewrite Hsep in H.
    symmetry in H. exact (append_ne_self _ _ _ H).
  - rewrite (repr_of_new _ _ _ Ha), (repr_of_new _ _ _ Hb).
    subst sep. unfold repr_between. cbv zeta.
    rewrite !append_assoc. reflexivity.
Qed.

End Display.

(** ** The further properties at concrete objects *)

(** The text recorded at the end of the file for the second and the third
    atom. *)
Example o_atom_altB_recorded :
  exists a, o_atom_altB = Ok a /\
    Atom.__repr__ float_str_printed (fun _ => "") a
    = Ok "Atom(name='O', coord=[16.123, 11.987, 9.543], bfactor=45.1, occupancy=0.5, altloc='B', serial_number=26, element='O', pqr_charge=None, radius=None)".
Proof.
  destruct o_atom_altB_Ok as [a E]. exists a. split; [exact E|].
  rewrite (repr_of_new _ _ _ _ _ _ _ _ _ _ _ _ _ _ E).
  vm_compute. reflexivity.
Qed.


Lemma Atom_element_upper_invariant_witness :
  ascii_upper "" = "" /\
  exists a, ca_atom_instance = Ok a /\
    a !! "element" = Some (PyStr "C") /\ "C" = ascii_upper "C".
Proof.
  split; [reflexivity|].
  destruct ca_atom_instance_printed as (a & E & _ & He & _).
  exists a. split; [exact E|]. split; [exact He|].
  exact (Atom_element_upper_invariant ascii_upper "CA"
           [15.234; 12.567; 8.901]%float (Some 35.7%float)
           (Some 1.0%float) " " " CA " 25 (Some "C") None None
           eq_refl a "C" E He).
Defined.

Lemma Atom_mass_consistent_witness :
  exists a, ca_atom_instance = Ok a /\
    exists m, Atom._assign_atom_mass a = Ok m /\
              a !! "mass" = Some (of_float_opt m).
Proof.
  destruct ca_atom_instance_Ok as [a E].
  exists a. split; [exact E|].
  exact (Atom_mass_consistent ascii_upper "CA"
           [15.234; 12.567; 8.901]%float (Some 35.7%float)
           (Some 1.0%float) " " " CA " 25 (Some "C") None None a E).
Defined.


Lemma Atom_mass_not_updated_witness :
  exists a, ca_atom_instance = Ok a /\
    setattr a "element" (PyStr "O") !! "mass" = Some (PyFloat 12.011) /\
    Atom._assign_atom_mass (setattr a "element" (PyStr "O"))
    = Ok (Some 15.999%float).
Proof.
  destruct ca_atom_instance_Ok as [a E].
  exists a. split; [exact E|].
  exact (Atom_mass_not_updated ascii_upper "CA"
           [15.234; 12.567; 8.901]%float (Some 35.7%float)
           (Some 1.0%float) " " " CA " 25 None None a E).
Defined.



Lemma Residue_init_resets_atoms_witness :
  exists a, Residue.new "ALA" 12 = Ok a /\
    a !! "name" = Some (PyStr "ALA") /\
    a !! "id" = Some (PyInt 12) /\
    a !! "atoms" = Some (PyList []) /\
    forall attr, attr <> "name" -> attr <> "id" -> attr <> "atoms" ->
      a !! attr = (∅ : object) !! attr.
Proof.
  exact (Residue_init_resets_atoms ∅ "ALA" 12).
Defined.





Lemma Atom_repr_ambiguous_witness :
  exists a b,
    Atom.new ascii_upper "x" [] None None
      ("y" +:+ repr_between float_str_printed (fun _ => "") [] None None
           +:+ "z") " x  " 1 None None None = Ok a /\
    Atom.new ascii_upper
      ("x" +:+ repr_between float_str_printed (fun _ => "") [] None None
           +:+ "y") [] None None "z" " x  " 1 None None None = Ok b /\
    a !! "name" <> b !! "name" /\
    Atom.__repr__ float_str_printed (fun _ => "") a
    = Atom.__repr__ float_str_printed (fun _ => "") b.
Proof.
  set (sep := repr_between float_str_printed (fun _ => "") [] None None).
  assert (Ha : exists a,
             Atom.new ascii_upper "x" [] None None ("y" +:+ sep +:+ "z")
               " x  " 1 None None None = Ok a)
    by (init_run; eexists; reflexivity).
  assert (Hb : exists b,
             Atom.new ascii_upper ("x" +:+ sep +:+ "y") [] None None "z"
               " x  " 1 None None None = Ok b)
    by (init_run; eexists; reflexivity).
  destruct Ha as [a Ha]. destruct Hb as [b Hb].
  exists a, b. split; [exact Ha|]. split; [exact Hb|].
  exact (Atom_repr_ambiguous float_str_printed (fun _ => "") ascii_upper
           [] None None " x  " 1 None None None "x" "y" "z" a b Ha Hb).
Defined.

(** The common text of the two Atoms above. *)
Example ambiguous_text (a : object) :
  Atom.new ascii_upper "x" [] None None
    ("y" +:+ repr_between float_str_printed (fun _ => "") [] None None
         +:+ "z") " x  " 1 None None None = Ok a ->
  Atom.__repr__ float_str_printed (fun _ => "") a
  = Ok "Atom(name='x', coord=[], bfactor=None, occupancy=None, altloc='y', coord=[], bfactor=None, occupancy=None, altloc='z', serial_number=1, element='None', pqr_charge=None, radius=None)".
Proof.
  intros H. rewrite (repr_of_new _ _ _ _ _ _ _ _ _ _ _ _ _ _ H).
  vm_compute. reflexivity.
Qed.
